(** * MarkItDown API gateway: a shallow embedding of [main.py]

    The FastAPI application of [main.py] is embedded as state-passing
    functions over an explicit world (the scratch file system plus a trace
    of the effects performed).  Python exceptions are an explicit outcome,
    and [try]/[except] is a combinator on computations.  Everything that the
    operating system or the conversion engine decides (random temporary
    names, I/O errors, the engine's answer) is an input of the run. *)

From Stdlib Require Import ZArith String Ascii List Lia.
From stdpp Require Import base option gmap strings list pretty.

Set Warnings "-register-all,-notation-incompatible-prefix,-abstract-large-number".

Local Open Scope Z_scope.
Local Open Scope string_scope.

(** ** Python values *)

(** The values that flow through the handler and end up in the JSON body.
    A [dict] literal keeps its insertion order, hence an association list. *)
Inductive pyval :=
| PNone
| PBool (b : bool)
| PInt (z : Z)
| PStr (s : string)
| PList (l : list pyval)
| PDict (d : list (string * pyval)).

(** A Python object seen through its attributes ([getattr]). *)
Abbreviation pyobject := (gmap string pyval).

(** [d[key]] on a dict value. *)
Fixpoint assoc_get (key : string) (d : list (string * pyval)) : option pyval :=
  match d with
  | [] => None
  | (k, v) :: rest => if String.eqb k key then Some v else assoc_get key rest
  end.

Definition dict_get (key : string) (v : pyval) : option pyval :=
  match v with
  | PDict d => assoc_get key d
  | _ => None
  end.

(** ** Exceptions *)

(** [HTTPException] is FastAPI's (a subclass of [Exception]); every other
    exception class is kept by name with the text that [str(e)] gives. *)
Inductive exn :=
| HTTPException (status_code : Z) (detail : string) (headers : list (string * string))
| PyException (cls : string) (msg : string).

(** [str(e)].  Starlette defines [HTTPException.__str__] as
    [f"{self.status_code}: {self.detail}"]. *)
Definition exn_str (e : exn) : string :=
  match e with
  | HTTPException sc d _ => pretty sc +:+ ": " +:+ d
  | PyException _ msg => msg
  end.

Definition HTTP_400_BAD_REQUEST : Z := 400.
Definition HTTP_401_UNAUTHORIZED : Z := 401.
Definition HTTP_422_UNPROCESSABLE_ENTITY : Z := 422.
Definition HTTP_500_INTERNAL_SERVER_ERROR : Z := 500.

(** ** The world and the effect monad *)

Inductive Event :=
| EvLog (level : string) (msg : string)
| EvOpen (path : string)
| EvWrite (path : string) (size : nat)
| EvConvert (path : string)
| EvUnlink (path : string).

(** [fs] maps the path of each existing file to its content; [trace] lists
    the effects performed so far, most recent first. *)
Record World := mkWorld {
  fs : gmap string (list Byte.byte);
  trace : list Event
}.

Inductive outcome (A : Type) :=
| Return (a : A)
| Raise (e : exn).
Arguments Return {A} a.
Arguments Raise {A} e.

Definition M (A : Type) : Type := World -> outcome A * World.

Definition ret {A} (a : A) : M A := fun w => (Return a, w).

Definition raise {A} (e : exn) : M A := fun w => (Raise e, w).

Definition bind {A B} (m : M A) (k : A -> M B) : M B :=
  fun w =>
    match m w with
    | (Return a, w') => k a w'
    | (Raise e, w') => (Raise e, w')
    end.

(** [try: body except Exception as e: handler e]. *)
Definition try_except {A} (body : M A) (handler : exn -> M A) : M A :=
  fun w =>
    match body w with
    | (Return a, w') => (Return a, w')
    | (Raise e, w') => handler e w'
    end.

Notation "'let*' x ':=' c1 'in' c2" := (bind c1 (fun x => c2))
  (at level 10, x name, c1 at level 100, c2 at level 200).
Notation "c1 ';;;' c2" := (bind c1 (fun _ => c2))
  (at level 100, c2 at level 200, right associativity).

Definition emit (e : Event) : M unit :=
  fun w => (Return tt, {| fs := fs w; trace := e :: trace w |}).

(** ** The environment of one request *)

(** What the operating system does during one request.  [tempdir] is
    [tempfile.gettempdir()], [tmp_max] is [tempfile.TMP_MAX] (the platform's
    [os.TMP_MAX]) and [rand_name] is the sequence of candidate names drawn by
    [tempfile]'s random name generator; a fault [Some msg] makes the
    operation raise [OSError(msg)]. *)
Record Oracle := mkOracle {
  tempdir : string;
  tmp_max : nat;
  rand_name : nat -> string;
  read_fault : option string;
  open_fault : option string;
  write_fault : option string;
  close_fault : option string;
  unlink_fault : option string;
  cleanup_unlink_fault : option string
}.

(** ** Standard library operations used by the handler *)

Definition os_getenv (environ : gmap string string) (key default : string) : string :=
  match environ !! key with
  | Some v => v
  | None => default
  end.

(** [s.rfind(c)]: index of the last occurrence, [-1] when there is none. *)
Fixpoint rfind_from (c : ascii) (s : string) (i : Z) (found : Z) : Z :=
  match s with
  | EmptyString => found
  | String a rest => rfind_from c rest (i + 1) (if Ascii.eqb a c then i else found)
  end.

Definition rfind (c : ascii) (s : string) : Z := rfind_from c s 0 (-1).

(** [p[i:j]] for [0 <= i]. *)
Definition slice (p : string) (i j : Z) : string :=
  substring (Z.to_nat i) (Z.to_nat (j - i)) p.

(** The [while filenameIndex < dotIndex] loop of [genericpath._splitext],
    run over the characters of [p[sepIndex+1:dotIndex]]: true as soon as a
    character other than the extension separator is met. *)
Fixpoint has_non_dot (s : string) : bool :=
  match s with
  | EmptyString => false
  | String a rest => if Ascii.eqb a "." then has_non_dot rest else true
  end.

(** [os.path.splitext] (posixpath). *)
Definition splitext (p : string) : string * string :=
  let sepIndex := rfind "/" p in
  let dotIndex := rfind "." p in
  if (sepIndex <? dotIndex)%Z then
    if has_non_dot (slice p (sepIndex + 1) dotIndex)
    then (slice p 0 dotIndex, slice p dotIndex (Z.of_nat (String.length p)))
    else (p, "")
  else (p, "").

Definition startswith_sep (s : string) : bool :=
  match s with
  | String a _ => Ascii.eqb a "/"
  | EmptyString => false
  end.

Fixpoint endswith_sep (s : string) : bool :=
  match s with
  | EmptyString => false
  | String a EmptyString => Ascii.eqb a "/"
  | String _ rest => endswith_sep rest
  end.

(** [os.path.join(a, b)] (posixpath). *)
Definition os_path_join (a b : string) : string :=
  if startswith_sep b then b
  else if String.eqb a "" || endswith_sep a then a +:+ b
  else a +:+ "/" +:+ b.

Definition os_path_exists (path : string) : M bool :=
  fun w => (Return (bool_decide (is_Some (fs w !! path))), w).

(** [os.unlink(path)]. *)
Definition os_unlink (fault : option string) (path : string) : M unit :=
  emit (EvUnlink path) ;;;
  fun w =>
    match fault with
    | Some msg => (Raise (PyException "OSError" msg), w)
    | None =>
        match fs w !! path with
        | Some _ => (Return tt, {| fs := delete path (fs w); trace := trace w |})
        | None =>
            (Raise (PyException "FileNotFoundError"
                      ("[Errno 2] No such file or directory: '" +:+ path +:+ "'")), w)
        end
    end.

(** The loop of [tempfile._mkstemp_inner]: try candidate names until one
    does not exist yet ([os.open] with [O_EXCL]); [None] when [tries]
    candidates were all taken. *)
Fixpoint mkstemp_inner (names : nat -> string) (dir pre suf : string)
    (files : gmap string (list Byte.byte)) (tries seq : nat) : option string :=
  match tries with
  | O => None
  | S tries' =>
      let file := os_path_join dir (pre +:+ names seq +:+ suf) in
      match files !! file with
      | Some _ => mkstemp_inner names dir pre suf files tries' (S seq)
      | None => Some file
      end
  end.

(** [tempfile._mkstemp_inner] as [NamedTemporaryFile] calls it: default
    prefix, directory [gettempdir()]. *)
Definition mkstemp (o : Oracle) (suffix : string)
    (files : gmap string (list Byte.byte)) : option string :=
  mkstemp_inner (rand_name o) (tempdir o) "tmp" suffix files (tmp_max o) 0.
Arguments mkstemp : simpl never.

(** ** Requests and responses *)

(** [UploadFile]: the declared file name and content type, and the bytes
    that [await file.read()] gives. *)
Record UploadFile := mkUploadFile {
  filename : option string;
  content_type : option string;
  content : list Byte.byte
}.

(** A request to [POST /convert].  [bearer] is the token of a well-formed
    [Authorization: Bearer <token>] header, [None] when the request carries
    no such header. *)
Record Request := mkRequest {
  bearer : option string;
  file : UploadFile
}.

Record Response := mkResponse {
  status : Z;
  body : pyval
}.

(** What the client receives: FastAPI serialises a returned value with
    status 200, an [HTTPException] with its own status and a [detail]
    field, and answers 500 to any other exception. *)
Definition respond (r : outcome pyval) : Response :=
  match r with
  | Return v => {| status := 200; body := v |}
  | Raise (HTTPException sc d _) => {| status := sc; body := PDict [("detail", PStr d)] |}
  | Raise (PyException _ _) => {| status := 500; body := PStr "Internal Server Error" |}
  end.

(** [str(x)] inside an f-string, for an optional string. *)
Definition fmt (x : option string) : string :=
  match x with
  | Some s => s
  | None => "None"
  end.

(** [not x] for an optional string: true for [None] and for [""]. *)
Definition falsy (x : option string) : bool :=
  match x with
  | Some s => String.eqb s ""
  | None => true
  end.

Definition logger_info (msg : string) : M unit := emit (EvLog "INFO" msg).
Definition logger_error (msg : string) : M unit := emit (EvLog "ERROR" msg).

(** [await file.read()]. *)
Definition upload_read (o : Oracle) (f : UploadFile) : M (list Byte.byte) :=
  match read_fault o with
  | Some msg => raise (PyException "OSError" msg)
  | None => ret (content f)
  end.

(** [tempfile.NamedTemporaryFile(delete=False, suffix=suffix)]: creates an
    empty file under a name that does not exist yet and gives its name. *)
Definition NamedTemporaryFile (o : Oracle) (suffix : string) : M string :=
  fun w =>
    match open_fault o with
    | Some msg => (Raise (PyException "OSError" msg), w)
    | None =>
        match mkstemp o suffix (fs w) with
        | Some name =>
            (Return name, {| fs := <[name := []]> (fs w); trace := EvOpen name :: trace w |})
        | None =>
            (Raise (PyException "FileExistsError"
                      "[Errno 17] No usable temporary file name found"), w)
        end
    end.

(** [temp_file.write(data)]. *)
Definition file_write (o : Oracle) (name : string) (data : list Byte.byte) : M unit :=
  fun w =>
    match write_fault o with
    | Some msg => (Raise (PyException "OSError" msg), w)
    | None =>
        (Return tt,
         {| fs := <[name := (default [] (fs w !! name) ++ data)%list]> (fs w);
            trace := EvWrite name (length data) :: trace w |})
    end.

(** Closing the file when the [with] block is left. *)
Definition file_close (o : Oracle) : M unit :=
  match close_fault o with
  | Some msg => raise (PyException "OSError" msg)
  | None => ret tt
  end.

(** [with ... as temp_file: body]: the file is closed on the way out, also
    when [body] raised. *)
Definition with_file {A} (o : Oracle) (body : M A) : M A :=
  fun w =>
    match body w with
    | (Return a, w') => (file_close o ;;; ret a) w'
    | (Raise e, w') => (file_close o ;;; raise e) w'
    end.

(** The [with tempfile.NamedTemporaryFile(...) as temp_file] block of the
    handler: writes the upload and gives [temp_file.name]. *)
Definition write_temp_file (o : Oracle) (suffix : string) (file_content : list Byte.byte)
    : M string :=
  let* name := NamedTemporaryFile o suffix in
  with_file o (file_write o name file_content ;;; ret name).

(** [obj.name]. *)
Definition getattr (obj : pyobject) (name : string) : M pyval :=
  match obj !! name with
  | Some v => ret v
  | None =>
      raise (PyException "AttributeError"
               ("'DocumentConverterResult' object has no attribute '" +:+ name +:+ "'"))
  end.

(** [getattr(obj, name, default)]. *)
Definition getattr_default (obj : pyobject) (name : string) (default : pyval) : pyval :=
  match obj !! name with
  | Some v => v
  | None => default
  end.

(** [len(v)]. *)
Definition py_len (v : pyval) : M Z :=
  match v with
  | PStr s => ret (Z.of_nat (String.length s))
  | PList l => ret (Z.of_nat (length l))
  | PDict d => ret (Z.of_nat (length d))
  | PNone => raise (PyException "TypeError" "object of type 'NoneType' has no len()")
  | PBool _ => raise (PyException "TypeError" "object of type 'bool' has no len()")
  | PInt _ => raise (PyException "TypeError" "object of type 'int' has no len()")
  end.

Inductive Method := GET | POST.

(** ** Observations on runs *)

(** The scratch files created in a trace. *)
Fixpoint created (t : list Event) : list string :=
  match t with
  | [] => []
  | EvOpen p :: t' => p :: created t'
  | _ :: t' => created t'
  end.

(** The paths handed to the conversion engine in a trace. *)
Fixpoint converted (t : list Event) : list string :=
  match t with
  | [] => []
  | EvConvert p :: t' => p :: converted t'
  | _ :: t' => converted t'
  end.

(** [sub] occurs in [s]. *)
Definition contains (s sub : string) : Prop :=
  exists pre post, s = pre +:+ sub +:+ post.

(** The upload is read and written in full to a new scratch file [p]. *)
Definition staged (o : Oracle) (f : UploadFile) (files : gmap string (list Byte.byte))
    (p : string) : Prop :=
  read_fault o = None /\ open_fault o = None /\ write_fault o = None /\
  close_fault o = None /\
  mkstemp o (snd (splitext (fmt (filename f)))) files = Some p.

(** The [detail] of an error response. *)
Definition detail_of (r : Response) : option pyval := dict_get "detail" (body r).

(** The messages logged at [level] in a trace, most recent first. *)
Fixpoint logged (level : string) (t : list Event) : list string :=
  match t with
  | [] => []
  | EvLog l msg :: t' => if String.eqb l level then msg :: logged level t' else logged level t'
  | _ :: t' => logged level t'
  end.

(** The paths on which [os.unlink] was called in a trace. *)
Fixpoint unlinked (t : list Event) : list string :=
  match t with
  | [] => []
  | EvUnlink p :: t' => p :: unlinked t'
  | _ :: t' => unlinked t'
  end.

(** No character of [s] is the path separator. *)
Definition no_sep (s : string) : Prop :=
  forall k, String.get k s <> Some "/"%char.

(** ** Sample deployments and requests *)

Module Samples.

Definition environ_unset : gmap string string := ∅.
Definition environ_set : gmap string string := {["API_TOKEN" := "s3cret"]}.

(** An engine that extracts a fixed text from any existing file. *)
Definition engine_ok (path : string) (files : gmap string (list Byte.byte))
    : outcome pyobject :=
  match files !! path with
  | Some _ => Return {["text_content" := PStr "# Report"]}
  | None => Raise (PyException "FileNotFoundError" "no such file")
  end.

(** An engine that rejects every file. *)
Definition engine_fail (path : string) (files : gmap string (list Byte.byte))
    : outcome pyobject :=
  Raise (PyException "UnsupportedFormatException" "cannot parse").

(** [HTTPBearer]'s error in the FastAPI releases that answer 403. *)
Definition forbidden : exn := HTTPException 403 "Not authenticated" [].

(** An operating system without faults, whose name generator keeps
    drawing the same candidate. *)
Definition quiet : Oracle :=
  {| tempdir := "/tmp"; tmp_max := 238328; rand_name := fun _ => "k3x9_q2a";
     read_fault := None; open_fault := None; write_fault := None;
     close_fault := None; unlink_fault := None; cleanup_unlink_fault := None |}.

(** The delete after a successful conversion is refused, the one in the
    handler too. *)
Definition undeletable : Oracle :=
  {| tempdir := "/tmp"; tmp_max := 238328; rand_name := fun _ => "k3x9_q2a";
     read_fault := None; open_fault := None; write_fault := None;
     close_fault := None;
     unlink_fault := Some "[Errno 13] Permission denied";
     cleanup_unlink_fault := Some "[Errno 13] Permission denied" |}.

Definition report : UploadFile :=
  {| filename := Some "report.docx";
     content_type := Some "application/octet-stream";
     content := [Byte.x50; Byte.x4b; Byte.x03; Byte.x04] |}.

Definition nameless : UploadFile :=
  {| filename := Some ""; content_type := None; content := [Byte.x00] |}.

(** Only the delete that follows a successful conversion is refused. *)
Definition refused_once : Oracle :=
  {| tempdir := "/tmp"; tmp_max := 238328; rand_name := fun _ => "k3x9_q2a";
     read_fault := None; open_fault := None; write_fault := None;
     close_fault := None;
     unlink_fault := Some "[Errno 13] Permission denied";
     cleanup_unlink_fault := None |}.

(** A name generator whose second candidate differs from the first. *)
Definition second_draw : Oracle :=
  {| tempdir := "/tmp"; tmp_max := 238328;
     rand_name := fun n => match n with O => "k3x9_q2a" | _ => "zz81h_0p" end;
     read_fault := None; open_fault := None; write_fault := None;
     close_fault := None; unlink_fault := None; cleanup_unlink_fault := None |}.

Definition placeholder : string := "your-secret-token-here".

Definition authorized_report : Request :=
  {| bearer := Some placeholder; file := report |}.

Definition wrong_token_report : Request :=
  {| bearer := Some "guess"; file := report |}.

Definition anonymous_report : Request :=
  {| bearer := None; file := report |}.

Definition authorized_nameless : Request :=
  {| bearer := Some placeholder; file := nameless |}.

Definition scratch : string := "/tmp/tmpk3x9_q2a.docx".

(** The upload cannot be read. *)
Definition unreadable : Oracle :=
  {| tempdir := "/tmp"; tmp_max := 238328; rand_name := fun _ => "k3x9_q2a";
     read_fault := Some "connection reset"; open_fault := None; write_fault := None;
     close_fault := None; unlink_fault := None; cleanup_unlink_fault := None |}.

(** The write to the scratch file fails. *)
Definition disk_full : Oracle :=
  {| tempdir := "/tmp"; tmp_max := 238328; rand_name := fun _ => "k3x9_q2a";
     read_fault := None; open_fault := None;
     write_fault := Some "[Errno 28] No space left on device";
     close_fault := None; unlink_fault := None; cleanup_unlink_fault := None |}.

(** Only the delete of the error handler is refused. *)
Definition cleanup_refused : Oracle :=
  {| tempdir := "/tmp"; tmp_max := 238328; rand_name := fun _ => "k3x9_q2a";
     read_fault := None; open_fault := None; write_fault := None;
     close_fault := None; unlink_fault := None;
     cleanup_unlink_fault := Some "[Errno 13] Permission denied" |}.

(** An engine whose result carries no text. *)
Definition engine_no_text (path : string) (files : gmap string (list Byte.byte))
    : outcome pyobject :=
  Return {["text_content" := PNone]}.

(** An upload whose file name tries to leave the directory. *)
Definition traversal : UploadFile :=
  {| filename := Some "../../etc/cron.d/job.sh";
     content_type := None;
     content := [Byte.x23] |}.

Definition authorized_traversal : Request :=
  {| bearer := Some "your-secret-token-here"; file := traversal |}.

Definition world0 : World := {| fs := ∅; trace := [] |}.

(** A world in which the scratch file of another request is in flight. *)
Definition world_busy : World :=
  {| fs := {[scratch := content report]}; trace := [] |}.

End Samples.

(** ** The application *)

Section Gateway.

(** The process environment at start-up. *)
Variable environ : gmap string string.

(** [MarkItDown.convert]: the engine reads the file system and either
    returns a result object or raises. *)
Variable md_converter_convert :
  string -> gmap string (list Byte.byte) -> outcome pyobject.

(** The exception that FastAPI's [HTTPBearer] raises for a request
    without bearer credentials. *)
Variable not_authenticated : exn.

Definition API_TOKEN : string := os_getenv environ "API_TOKEN" "your-secret-token-here".

(** [security = HTTPBearer()], as a dependency of the request. *)
Definition security (req : Request) : M string :=
  match bearer req with
  | Some credentials => ret credentials
  | None => raise not_authenticated
  end.

Definition verify_token (credentials : string) : M string :=
  if negb (String.eqb credentials API_TOKEN) then
    raise (HTTPException HTTP_401_UNAUTHORIZED "Invalid authentication token"
             [("WWW-Authenticate", "Bearer")])
  else ret credentials.

Definition root : M pyval :=
  ret (PDict
    [("message", PStr "MarkItDown API");
     ("description", PStr "Convert various file formats to Markdown");
     ("version", PStr "1.0.0");
     ("supported_formats", PList
        [PStr "PowerPoint (.pptx)";
         PStr "Word (.docx)";
         PStr "Excel (.xlsx, .xls)";
         PStr "PDF (.pdf)";
         PStr "Images (with OCR)";
         PStr "Audio files (with transcription)";
         PStr "HTML";
         PStr "Text-based formats (CSV, JSON, XML)";
         PStr "ZIP files";
         PStr "EPubs";
         PStr "And more..."])]).

Definition md_converter (path : string) : M pyobject :=
  emit (EvConvert path) ;;;
  fun w => (md_converter_convert path (fs w), w).

Definition convert_file_to_markdown (o : Oracle) (file : UploadFile) (token : string)
    : M pyval :=
  if falsy (filename file) then
    raise (HTTPException HTTP_400_BAD_REQUEST "No file provided" [])
  else
    logger_info ("Converting file: " +:+ fmt (filename file)
                 +:+ " (Content-Type: " +:+ fmt (content_type file) +:+ ")") ;;;
    try_except
      (let* file_content := upload_read o file in
       let* temp_file_path :=
         write_temp_file o (snd (splitext (fmt (filename file)))) file_content in
       try_except
         (let* result := md_converter temp_file_path in
          os_unlink (unlink_fault o) temp_file_path ;;;
          let* markdown := getattr result "text_content" in
          let title := getattr_default result "title" PNone in
          let* text := getattr result "text_content" in
          let* content_length := py_len text in
          ret (PDict
            [("success", PBool true);
             ("filename", PStr (fmt (filename file)));
             ("file_size", PInt (Z.of_nat (length file_content)));
             ("markdown", markdown);
             ("metadata", PDict
                [("title", title);
                 ("content_length", PInt content_length)])]))
         (fun conversion_error =>
            let* still_there := os_path_exists temp_file_path in
            (if still_there then os_unlink (cleanup_unlink_fault o) temp_file_path
             else ret tt) ;;;
            logger_error ("Conversion error for " +:+ fmt (filename file) +:+ ": "
                          +:+ exn_str conversion_error) ;;;
            raise (HTTPException HTTP_422_UNPROCESSABLE_ENTITY
                     ("Failed to convert file: " +:+ exn_str conversion_error) [])))
      (fun e =>
         logger_error ("Error processing file " +:+ fmt (filename file) +:+ ": "
                       +:+ exn_str e) ;;;
         raise (HTTPException HTTP_500_INTERNAL_SERVER_ERROR
                  ("Internal server error: " +:+ exn_str e) [])).

Definition health_check : M pyval :=
  ret (PDict [("status", PStr "healthy"); ("service", PStr "markitdown-api")]).

(** [POST /convert]: the dependencies are resolved first
    ([Depends(verify_token)], itself depending on [security]), then the
    handler runs. *)
Definition depends_verify_token (req : Request) : M string :=
  let* credentials := security req in
  verify_token credentials.

Definition post_convert (o : Oracle) (req : Request) : M pyval :=
  let* token := depends_verify_token req in
  convert_file_to_markdown o (file req) token.

(** The routes declared on [app]; [None] for any other request, which
    the framework answers by itself. *)
Definition app (o : Oracle) (method : Method) (path : string) (req : Request)
    : option (M pyval) :=
  match method with
  | GET =>
      if String.eqb path "/" then Some root
      else if String.eqb path "/health" then Some health_check
      else None
  | POST =>
      if String.eqb path "/convert" then Some (post_convert o req)
      else None
  end.

(** One request served from world [w]: the response and the world left
    behind. *)
Definition serve (o : Oracle) (method : Method) (path : string) (req : Request)
    (w : World) : option (Response * World) :=
  match app o method path req with
  | Some endpoint => let (r, w') := endpoint w in Some (respond r, w')
  | None => None
  end.

(** The engine's answer on a staged scratch file is a function of the
    suffix and of the bytes written, whatever name the file was given
    and whatever else the file system holds. *)
Definition engine_deterministic : Prop :=
  forall o1 o2 suffix (files1 files2 : gmap string (list Byte.byte)) p1 p2 data,
    mkstemp o1 suffix files1 = Some p1 ->
    mkstemp o2 suffix files2 = Some p2 ->
    md_converter_convert p1 (<[p1:=data]> files1)
    = md_converter_convert p2 (<[p2:=data]> files2).

(** *** Helper lemmas *)

Local Arguments exn_str : simpl never.

Lemma mkstemp_inner_fresh names dir pre suf (files : gmap string (list Byte.byte))
    tries seq p :
  mkstemp_inner names dir pre suf files tries seq = Some p -> files !! p = None.
Proof.
  revert seq. induction tries as [|n IH]; intros seq; simpl; [discriminate|].
  destruct (files !! os_path_join dir (pre +:+ names seq +:+ suf)) eqn:E.
  - apply IH.
  - intros [= <-]. exact E.
Qed.

Lemma mkstemp_fresh o suf (files : gmap string (list Byte.byte)) p :
  mkstemp o suf files = Some p -> files !! p = None.
Proof. apply mkstemp_inner_fresh. Qed.

Lemma exists_after_insert (m : gmap string (list Byte.byte)) p d :
  bool_decide (is_Some (<[p:=d]> m !! p)) = true.
Proof. rewrite lookup_insert_eq. apply bool_decide_eq_true. eauto. Qed.

Lemma exists_after_delete (m : gmap string (list Byte.byte)) p :
  bool_decide (is_Some (delete p m !! p)) = false.
Proof. rewrite lookup_delete_eq. apply bool_decide_eq_false. intros [? [=]]. Qed.

Lemma falsy_false_inv x : falsy x = false -> exists fn, x = Some fn /\ fn <> "".
Proof.
  destruct x as [fn|]; simpl; [|discriminate].
  intros H. exists fn. split; [reflexivity|].
  intros ->. discriminate.
Qed.

Lemma falsy_some fn : fn <> "" -> falsy (Some fn) = false.
Proof. intros H. simpl. apply String.eqb_neq. exact H. Qed.

Lemma append_empty_r s : s +:+ "" = s.
Proof. 
  induction s as [|a s IH]; [reflexivity|].
  change (String a s +:+ "") with (String a (s +:+ "")). rewrite IH. reflexivity.
Qed.

Lemma contains_suffix pre sub : contains (pre +:+ sub) sub.
Proof. exists pre, "". rewrite append_empty_r. reflexivity. Qed.

Ltac unfold_run :=
  unfold post_convert, depends_verify_token, security, verify_token,
    convert_file_to_markdown, write_temp_file, NamedTemporaryFile, with_file,
    file_write, file_close, upload_read, md_converter, os_unlink, os_path_exists,
    getattr, py_len, logger_info, logger_error, emit, try_except, bind, ret, raise
    in *.

Ltac fs_simpl H :=
  simpl in H;
  rewrite ?exists_after_insert, ?exists_after_delete, ?lookup_insert_eq,
    ?lookup_delete_eq, ?insert_insert_eq, ?delete_insert_eq in H;
  simpl in H.

(** The scrutinee that decides the next step of a run. *)
Ltac head_destruct t :=
  lazymatch t with
  | match ?x with _ => _ end => head_destruct x
  | (match ?x with _ => _ end) _ => head_destruct x
  | _ => destruct t eqn:?
  end.

(** Case analysis along the control flow of the run in [H], down to its
    outcome and final world. *)
Ltac walk H :=
  unfold_run;
  repeat (fs_simpl H;
          lazymatch type of H with
          | (_, _) = _ => fail
          | ?lhs = _ => head_destruct lhs
          end);
  fs_simpl H; apply pair_equal_spec in H as [? ?]; simpl in *; subst;
  try congruence.

(** Two equations on the same term are merged. *)
Ltac merge_eqs :=
  simplify_eq;
  repeat match goal with
         | H1 : ?x = _, H2 : ?x = _ |- _ => rewrite H1 in H2; simplify_eq
         end.

(** A request creates at most one scratch file, under a fresh name. *)
Lemma post_convert_created o req w r w' :
  post_convert o req w = (r, w') ->
  created (trace w') = created (trace w) \/
  exists p, created (trace w') = p :: created (trace w) /\ fs w !! p = None.
Proof.
  intros H. walk H; simpl; eauto using mkstemp_fresh.
Qed.

(** What a success response implies about the run. *)
Lemma post_convert_success_inv o req w body w' :
  post_convert o req w = (Return body, w') ->
  exists fn p result text n,
    bearer req = Some API_TOKEN /\
    filename (file req) = Some fn /\ fn <> "" /\
    staged o (file req) (fs w) p /\
    md_converter_convert p (<[p:=content (file req)]> (fs w)) = Return result /\
    unlink_fault o = None /\
    result !! "text_content" = Some text /\
    py_len text w = (Return n, w) /\
    created (trace w') = p :: created (trace w) /\
    body = PDict
      [("success", PBool true);
       ("filename", PStr fn);
       ("file_size", PInt (Z.of_nat (length (content (file req)))));
       ("markdown", text);
       ("metadata", PDict
          [("title", getattr_default result "title" PNone);
           ("content_length", PInt n)])].
Proof.
  intros H. walk H.
  all: match goal with
       | Hf : falsy _ = false |- _ =>
           destruct (falsy_false_inv _ Hf) as (fn & Hfn & Hne)
       end.
  all: match goal with
       | Ht : negb (String.eqb ?c _) = false |- _ =>
           apply negb_false_iff, String.eqb_eq in Ht; subst c
       end.
  all: injection H as <-; rewrite Hfn in *; simpl in *.
  all: eexists fn, _, _, _, _; unfold staged; rewrite Hfn; simpl.
  all: repeat split; eauto.
Qed.

Lemma depends_verify_token_ok req w :
  bearer req = Some API_TOKEN ->
  depends_verify_token req w = (Return API_TOKEN, w).
Proof.
  intros Hb. unfold depends_verify_token, security, verify_token, bind, ret.
  rewrite Hb, String.eqb_refl. reflexivity.
Qed.

Lemma depends_verify_token_rejects req w :
  bearer req <> Some API_TOKEN ->
  exists e, depends_verify_token req w = (Raise e, w) /\
    match bearer req with
    | Some _ => e = HTTPException HTTP_401_UNAUTHORIZED "Invalid authentication token"
                      [("WWW-Authenticate", "Bearer")]
    | None => e = not_authenticated
    end.
Proof.
  intros Hb. unfold depends_verify_token, security, verify_token, bind, ret, raise.
  destruct (bearer req) as [c|]; [|eauto].
  destruct (String.eqb c API_TOKEN) eqn:E; simpl; [|eauto].
  apply String.eqb_eq in E. congruence.
Qed.

Lemma post_convert_authenticated o req w :
  bearer req = Some API_TOKEN ->
  post_convert o req w = convert_file_to_markdown o (file req) API_TOKEN w.
Proof.
  intros Hb. unfold post_convert, bind at 1.
  rewrite (depends_verify_token_ok _ _ Hb). reflexivity.
Qed.

(** *** The claims *)

(** C1 (the code departs from the claim).  When the guards pass, the
    scratch file is staged and the engine raises [e], the handler raises
    its 422 [HTTPException] inside the outer [try], whose
    [except Exception] catches it: the client receives status 500, not
    422.  When the clean-up delete works, the detail is the text of the 422
    error behind the prefix of the outer handler, and so contains the
    message of [e]. *)
Theorem C1_engine_failure_answers_500 o req w p e r w' :
  bearer req = Some API_TOKEN ->
  falsy (filename (file req)) = false ->
  staged o (file req) (fs w) p ->
  md_converter_convert p (<[p:=content (file req)]> (fs w)) = Raise e ->
  post_convert o req w = (r, w') ->
  status (respond r) = HTTP_500_INTERNAL_SERVER_ERROR /\
  (cleanup_unlink_fault o = None ->
   exists d,
     detail_of (respond r) = Some (PStr d) /\
     d = "Internal server error: 422: Failed to convert file: " +:+ exn_str e /\
     contains d (exn_str e)).
Proof.
  intros Hb Hf (Hr & Ho & Hw & Hc & Hp) He H.
  rewrite post_convert_authenticated in H by assumption.
  walk H; merge_eqs; (split; [reflexivity|]); try discriminate.
  intros _. eexists. split; [reflexivity|]. split; [reflexivity|].
  apply (contains_suffix "Internal server error: 422: Failed to convert file: ").
Qed.

(** C2 (amended).  A request whose bearer token is not the configured
    secret never reaches the handler: the world is left as it was (no
    scratch file, no engine call, no log).  A wrong token is answered 401
    by [verify_token]; a request without bearer credentials is answered
    by the framework's [HTTPBearer] with its own error. *)
Theorem C2_bad_token_rejected_before_staging o req w r w' :
  bearer req <> Some API_TOKEN ->
  post_convert o req w = (r, w') ->
  w' = w /\
  match bearer req with
  | Some _ => status (respond r) = HTTP_401_UNAUTHORIZED
  | None => r = Raise not_authenticated
  end.
Proof.
  intros Hb H.
  destruct (depends_verify_token_rejects req w Hb) as (e & Hd & He).
  unfold post_convert, bind in H. rewrite Hd in H.
  injection H as <- <-. split; [reflexivity|].
  destruct (bearer req); subst e; reflexivity.
Qed.

(** C3 (amended).  A request creates at most one scratch file.  When the
    guards pass and the upload is staged in scratch file [p], the engine
    is called on [p]; if the delete operation does not fail, [p] is
    deleted when the request returns, whether the engine succeeded or
    raised, and the file system is back to what it was. *)
Theorem C3_scratch_file_removed o req w r w' :
  post_convert o req w = (r, w') ->
  (length (created (trace w')) <= S (length (created (trace w))))%nat /\
  forall p,
    bearer req = Some API_TOKEN ->
    falsy (filename (file req)) = false ->
    staged o (file req) (fs w) p ->
    unlink_fault o = None ->
    cleanup_unlink_fault o = None ->
    created (trace w') = p :: created (trace w) /\
    converted (trace w') = p :: converted (trace w) /\
    In (EvUnlink p) (trace w') /\
    fs w' !! p = None /\
    fs w' = fs w.
Proof.
  intros H. split.
  - destruct (post_convert_created _ _ _ _ _ H) as [-> | (p & -> & _)]; simpl; lia.
  - intros p Hb Hf (Hr & Ho & Hw & Hc & Hp) Hu Hcu.
    pose proof (mkstemp_fresh _ _ _ _ Hp) as Hfresh.
    rewrite post_convert_authenticated in H by assumption.
    walk H; merge_eqs.
    all: simpl; rewrite lookup_delete_eq, (delete_id _ _ Hfresh); tauto.
Qed.

(** C4 (amended).  With the correct token, a non-empty file name, the
    upload staged, an engine call that returns a result whose extracted
    text is [md], and a delete of the scratch file that works, the
    request answers 200 with [success] true, the uploaded file name, the
    byte length of the upload, [md] as markdown and its character length
    as [metadata.content_length]. *)
Theorem C4_success_response o req w fn p result md r w' :
  bearer req = Some API_TOKEN ->
  filename (file req) = Some fn ->
  fn <> "" ->
  staged o (file req) (fs w) p ->
  md_converter_convert p (<[p:=content (file req)]> (fs w)) = Return result ->
  result !! "text_content" = Some (PStr md) ->
  unlink_fault o = None ->
  post_convert o req w = (r, w') ->
  exists resp,
    r = Return resp /\
    status (respond r) = 200 /\
    dict_get "success" resp = Some (PBool true) /\
    dict_get "filename" resp = Some (PStr fn) /\
    dict_get "file_size" resp = Some (PInt (Z.of_nat (length (content (file req))))) /\
    dict_get "markdown" resp = Some (PStr md) /\
    (dict_get "metadata" resp ≫= dict_get "content_length")
    = Some (PInt (Z.of_nat (String.length md))).
Proof.
  intros Hb Hfn Hne (Hr & Ho & Hw & Hc & Hp) He Ht Hu H.
  rewrite post_convert_authenticated in H by assumption.
  pose proof (falsy_some _ Hne) as Hf. rewrite <- Hfn in Hf.
  walk H; merge_eqs.
  rewrite Hfn. eexists. repeat split.
Qed.

(** C5.  A request with the correct token and an empty or absent file
    name is answered 400 and leaves the world as it was (no scratch file,
    no engine call).  The guard comes after authentication: with a bad
    token the same request gets the authentication error. *)
Theorem C5_missing_filename_answers_400 o req w r w' :
  falsy (filename (file req)) = true ->
  post_convert o req w = (r, w') ->
  w' = w /\
  (bearer req = Some API_TOKEN ->
   r = Raise (HTTPException HTTP_400_BAD_REQUEST "No file provided" []) /\
   status (respond r) = 400) /\
  (bearer req <> Some API_TOKEN ->
   exists e, depends_verify_token req w = (Raise e, w) /\ r = Raise e).
Proof.
  intros Hf H.
  destruct (decide (bearer req = Some API_TOKEN)) as [Hb|Hb].
  - rewrite post_convert_authenticated in H by assumption.
    unfold convert_file_to_markdown in H. rewrite Hf in H.
    injection H as <- <-. repeat split; try reflexivity. congruence.
  - destruct (depends_verify_token_rejects req w Hb) as (e & Hd & _).
    unfold post_convert, bind in H. rewrite Hd in H.
    injection H as <- <-. repeat split; try congruence. eauto.
Qed.

(** C6 (amended).  A failure of the delete operation is escalated: when
    the engine call succeeded and deleting the scratch file fails, the
    request ends in an HTTP error (422 or 500) instead of the success
    response. *)
Theorem C6_delete_failure_is_an_error o req w p result msg r w' :
  bearer req = Some API_TOKEN ->
  falsy (filename (file req)) = false ->
  staged o (file req) (fs w) p ->
  md_converter_convert p (<[p:=content (file req)]> (fs w)) = Return result ->
  unlink_fault o = Some msg ->
  post_convert o req w = (r, w') ->
  exists sc d h,
    r = Raise (HTTPException sc d h) /\
    (sc = HTTP_422_UNPROCESSABLE_ENTITY \/ sc = HTTP_500_INTERNAL_SERVER_ERROR).
Proof.
  intros Hb Hf (Hr & Ho & Hw & Hc & Hp) He Hu H.
  rewrite post_convert_authenticated in H by assumption.
  walk H; merge_eqs; eauto 6.
Qed.

(** C7.  Authentication succeeds exactly when the presented bearer token
    is equal, as a string, to [API_TOKEN], which is the value of the
    environment variable [API_TOKEN] at start-up and the fixed
    placeholder when the variable is unset. *)
Theorem C7_authentication_iff_secret req w :
  ((exists token w', depends_verify_token req w = (Return token, w'))
   <-> bearer req = Some API_TOKEN) /\
  API_TOKEN = match environ !! "API_TOKEN" with
              | Some secret => secret
              | None => "your-secret-token-here"
              end.
Proof.
  split; [|reflexivity]. split.
  - intros (token & w' & H).
    destruct (decide (bearer req = Some API_TOKEN)) as [Hb|Hb]; [exact Hb|].
    destruct (depends_verify_token_rejects req w Hb) as (e & Hd & _). congruence.
  - intros Hb. exists API_TOKEN, w. apply depends_verify_token_ok, Hb.
Qed.

(** C8 (amended).  Two successful runs on the same bytes and file name
    with a deterministic engine return the same markdown.  Each run
    creates one scratch file, and the two paths differ whenever the
    scratch file of the first run is still there when the second run
    stages its own. *)
Theorem C8_same_markdown_fresh_scratch o1 o2 req1 req2 w1 w2 b1 b2 w1' w2' :
  engine_deterministic ->
  content (file req1) = content (file req2) ->
  filename (file req1) = filename (file req2) ->
  post_convert o1 req1 w1 = (Return b1, w1') ->
  post_convert o2 req2 w2 = (Return b2, w2') ->
  dict_get "markdown" b1 = dict_get "markdown" b2 /\
  exists p1 p2,
    created (trace w1') = p1 :: created (trace w1) /\
    created (trace w2') = p2 :: created (trace w2) /\
    (is_Some (fs w2 !! p1) -> p1 <> p2).
Proof.
  intros Hdet Hc Hn H1 H2.
  apply post_convert_success_inv in H1
    as (fn1 & p1 & res1 & t1 & n1 & _ & Hfn1 & _ & (_ & _ & _ & _ & Hp1) & He1 & _
        & Ht1 & _ & Hcr1 & ->).
  apply post_convert_success_inv in H2
    as (fn2 & p2 & res2 & t2 & n2 & _ & Hfn2 & _ & (_ & _ & _ & _ & Hp2) & He2 & _
        & Ht2 & _ & Hcr2 & ->).
  rewrite Hn in Hp1. rewrite Hc in He1.
  rewrite (Hdet _ _ _ _ _ _ _ _ Hp1 Hp2) in He1.
  assert (res1 = res2) as -> by congruence.
  split.
  - simpl. congruence.
  - exists p1, p2. repeat split; try assumption.
    intros [x Hx] ->. apply mkstemp_fresh in Hp2. congruence.
Qed.

(** C9.  [GET /health] needs no credentials, leaves the world as it was
    and always answers 200 with the fixed payload. *)
Theorem C9_health_check_fixed o req w :
  serve o GET "/health" req w
  = Some ({| status := 200;
             body := PDict [("status", PStr "healthy");
                            ("service", PStr "markitdown-api")] |},
          w).
Proof.
  unfold serve, app, health_check, ret. simpl. reflexivity.
Qed.

(** C10.  In a successful conversion whose engine result has no [title]
    attribute, [metadata.title] of the response is [None] (JSON null). *)
Theorem C10_missing_title_is_null o req w resp w' p result :
  post_convert o req w = (Return resp, w') ->
  staged o (file req) (fs w) p ->
  md_converter_convert p (<[p:=content (file req)]> (fs w)) = Return result ->
  result !! "title" = None ->
  (dict_get "metadata" resp ≫= dict_get "title") = Some PNone.
Proof.
  intros H (_ & _ & _ & _ & Hp) He Ht.
  apply post_convert_success_inv in H
    as (fn & p' & res & t & n & _ & _ & _ & (_ & _ & _ & _ & Hp') & He' & _ & _ & _
        & _ & ->).
  assert (p' = p) as -> by congruence.
  assert (res = result) as -> by congruence.
  simpl. unfold getattr_default. rewrite Ht. reflexivity.
Qed.

(** *** Further properties of the handler *)

(** X1.  The answers of [POST /convert]: the success payload, the error of
    the framework for a request without credentials, 401, 400, or 500 with
    a detail behind the prefix of the outer handler.  The 422 that the
    handler raises never reaches the client. *)
Theorem X1_answers_of_post_convert o req w r w' :
  post_convert o req w = (r, w') ->
  (exists resp, r = Return resp /\ dict_get "success" resp = Some (PBool true)) \/
  (bearer req = None /\ r = Raise not_authenticated) \/
  r = Raise (HTTPException HTTP_401_UNAUTHORIZED "Invalid authentication token"
               [("WWW-Authenticate", "Bearer")]) \/
  r = Raise (HTTPException HTTP_400_BAD_REQUEST "No file provided" []) \/
  (exists msg,
     r = Raise (HTTPException HTTP_500_INTERNAL_SERVER_ERROR
                  ("Internal server error: " +:+ msg) [])).
Proof.
  intros H. walk H; eauto 10.
Qed.

(** X2.  When the upload cannot be read, or the scratch file cannot be
    created, an authenticated request with a file name is answered 500
    with the error's message; no file is created and the engine is not
    called. *)
Theorem X2_failure_before_staging o req w msg r w' :
  bearer req = Some API_TOKEN ->
  falsy (filename (file req)) = false ->
  read_fault o = Some msg \/
  (read_fault o = None /\ open_fault o = Some msg) \/
  (read_fault o = None /\ open_fault o = None /\
   mkstemp o (snd (splitext (fmt (filename (file req))))) (fs w) = None /\
   msg = "[Errno 17] No usable temporary file name found") ->
  post_convert o req w = (r, w') ->
  r = Raise (HTTPException HTTP_500_INTERNAL_SERVER_ERROR
               ("Internal server error: " +:+ msg) []) /\
  fs w' = fs w /\
  created (trace w') = created (trace w) /\
  converted (trace w') = converted (trace w).
Proof.
  intros Hb Hf Hfail H.
  rewrite post_convert_authenticated in H by assumption.
  walk H; destruct Hfail as [?|[[? ?]|(? & ? & ? & ?)]]; merge_eqs; auto.
Qed.

(** X3.  When writing or closing the scratch file fails, the request is
    answered 500, the engine is not called, no delete is attempted, and
    the scratch file that was created stays in the file system. *)
Theorem X3_failed_write_leaves_scratch_file o req w p r w' :
  bearer req = Some API_TOKEN ->
  falsy (filename (file req)) = false ->
  read_fault o = None ->
  open_fault o = None ->
  mkstemp o (snd (splitext (fmt (filename (file req))))) (fs w) = Some p ->
  write_fault o <> None \/ close_fault o <> None ->
  post_convert o req w = (r, w') ->
  status (respond r) = HTTP_500_INTERNAL_SERVER_ERROR /\
  created (trace w') = p :: created (trace w) /\
  converted (trace w') = converted (trace w) /\
  unlinked (trace w') = unlinked (trace w) /\
  is_Some (fs w' !! p).
Proof.
  intros Hb Hf Hr Ho Hp Hfail H.
  rewrite post_convert_authenticated in H by assumption.
  walk H; merge_eqs; try (destruct Hfail; congruence).
  all: simpl; rewrite lookup_insert_eq; eauto 10.
Qed.

(** X4.  A request changes the file system at most at the path of the
    scratch file it creates, which did not exist before: every other file
    is left as it was. *)
Theorem X4_other_files_untouched o req w r w' :
  post_convert o req w = (r, w') ->
  (created (trace w') = created (trace w) /\ fs w' = fs w) \/
  (exists p,
     created (trace w') = p :: created (trace w) /\
     fs w !! p = None /\
     forall q, q <> p -> fs w' !! q = fs w !! q).
Proof.
  intros H. walk H; simpl; auto.
  all: right; eexists; split; [reflexivity|]; split; [eauto using mkstemp_fresh|].
  all: intros q Hq; rewrite ?lookup_delete_ne, ?lookup_insert_ne by congruence; reflexivity.
Qed.



(** X8.  Staging round trip: when the [with NamedTemporaryFile] block
    succeeds, the scratch file is new, holds exactly the uploaded bytes,
    and every other file is as before. *)
Theorem X8_staging_round_trip o suffix data w p w1 :
  write_temp_file o suffix data w = (Return p, w1) ->
  fs w !! p = None /\
  fs w1 !! p = Some data /\
  (forall q, q <> p -> fs w1 !! q = fs w !! q) /\
  trace w1 = EvWrite p (length data) :: EvOpen p :: trace w.
Proof.
  unfold write_temp_file, NamedTemporaryFile, with_file, file_write, file_close,
    bind, ret, raise.
  intros H.
  destruct (open_fault o); [discriminate|].
  destruct (mkstemp o suffix (fs w)) as [name|] eqn:Hname; [|discriminate].
  simpl in H.
  destruct (write_fault o); simpl in H;
    (destruct (close_fault o); simpl in H; [discriminate|]); [discriminate|].
  injection H as <- <-. simpl.
  rewrite !lookup_insert_eq. simpl.
  repeat split; eauto using mkstemp_fresh.
  intros q Hq. rewrite !lookup_insert_ne by congruence. reflexivity.
Qed.

(** X9.  When the engine returns a result without usable text (no
    [text_content] attribute, or one that has no length), the request is
    answered 500; the scratch file was deleted before the result was
    read, by the one delete of the success path. *)
Theorem X9_result_without_text o req w p result r w' :
  bearer req = Some API_TOKEN ->
  falsy (filename (file req)) = false ->
  staged o (file req) (fs w) p ->
  md_converter_convert p (<[p:=content (file req)]> (fs w)) = Return result ->
  unlink_fault o = None ->
  (result !! "text_content" = None \/
   result !! "text_content" = Some PNone \/
   (exists b, result !! "text_content" = Some (PBool b)) \/
   (exists z, result !! "text_content" = Some (PInt z))) ->
  post_convert o req w = (r, w') ->
  status (respond r) = HTTP_500_INTERNAL_SERVER_ERROR /\
  fs w' = fs w /\
  unlinked (trace w') = p :: unlinked (trace w).
Proof.
  intros Hb Hf (Hr & Ho & Hw & Hc & Hp) He Hu Hbad H.
  pose proof (mkstemp_fresh _ _ _ _ Hp) as Hfresh.
  rewrite post_convert_authenticated in H by assumption.
  walk H; merge_eqs.
  all: try (destruct Hbad as [?|[?|[[? ?]|[? ?]]]]; congruence).
  all: simpl; rewrite (delete_id _ _ Hfresh); auto.
Qed.

(** X10.  Every declared route other than [POST /convert] answers 200
    whatever the request carries (no credentials needed), with a payload
    that does not depend on the request, and leaves the world as it
    was. *)
Theorem X10_open_routes o method path req w resp w' :
  serve o method path req w = Some (resp, w') ->
  (method, path) <> (POST, "/convert") ->
  status resp = 200 /\
  w' = w /\
  forall o' req', serve o' method path req' w = Some (resp, w).
Proof.
  unfold serve, app. intros H Hroute.
  destruct method.
  - destruct (String.eqb path "/"); [|destruct (String.eqb path "/health")];
      simpl in H; [| |discriminate]; injection H as <- <-; auto.
  - destruct (String.eqb path "/convert") eqn:E; [|discriminate].
    apply String.eqb_eq in E. congruence.
Qed.

(** X11.  When the engine raises and the delete of the error handler
    fails too, the client receives the delete's error: the engine's
    message is neither returned nor logged, and the scratch file stays. *)
Theorem X11_cleanup_failure_hides_engine_error o req w p e msg r w' :
  bearer req = Some API_TOKEN ->
  falsy (filename (file req)) = false ->
  staged o (file req) (fs w) p ->
  md_converter_convert p (<[p:=content (file req)]> (fs w)) = Raise e ->
  cleanup_unlink_fault o = Some msg ->
  post_convert o req w = (r, w') ->
  r = Raise (HTTPException HTTP_500_INTERNAL_SERVER_ERROR
               ("Internal server error: " +:+ msg) []) /\
  logged "ERROR" (trace w')
  = ("Error processing file " +:+ fmt (filename (file req)) +:+ ": " +:+ msg)
    :: logged "ERROR" (trace w) /\
  fs w' !! p = Some (content (file req)).
Proof.
  intros Hb Hf (Hr & Ho & Hw & Hc & Hp) He Hcu H.
  rewrite post_convert_authenticated in H by assumption.
  walk H; merge_eqs.
  simpl. rewrite lookup_insert_eq. auto.
Qed.

(** *** The suffix of the scratch file *)

Lemma get_Some_lt k s c : String.get k s = Some c -> (k < String.length s)%nat.
Proof.
  revert k. induction s as [|a s IH]; intros k; simpl; [discriminate|].
  destruct k as [|k]; [lia|]. intros H. apply IH in H. lia.
Qed.

(** [rfind_from] gives [found] when [c] does not occur, and otherwise the
    position of its last occurrence. *)
Lemma rfind_from_spec c s i found :
  (rfind_from c s i found = found /\ forall k, String.get k s <> Some c) \/
  (exists k,
     rfind_from c s i found = i + Z.of_nat k /\
     String.get k s = Some c /\
     forall j, (k < j)%nat -> String.get j s <> Some c).
Proof.
  revert i found. induction s as [|a s IH]; intros i found; simpl.
  - left. split; [reflexivity|]. intros k. destruct k; discriminate.
  - destruct (IH (i + 1) (if Ascii.eqb a c then i else found))
      as [[Hr Hno]|(k & Hr & Hk & Hlast)].
    + destruct (Ascii.eqb a c) eqn:E.
      * apply Ascii.eqb_eq in E. subst a. right. exists O.
        split; [rewrite Hr; lia|]. split; [reflexivity|].
        intros [|j] Hj; [lia|]. simpl. apply Hno.
      * left. split; [exact Hr|].
        intros [|k]; simpl; [|apply Hno].
        intros [= ->]. rewrite Ascii.eqb_refl in E. discriminate.
    + right. exists (S k). split; [rewrite Hr; lia|]. split; [exact Hk|].
      intros [|j] Hj; [lia|]. simpl. apply Hlast. lia.
Qed.

Lemma rfind_spec c s :
  (rfind c s = -1 /\ forall k, String.get k s <> Some c) \/
  (exists k,
     rfind c s = Z.of_nat k /\
     String.get k s = Some c /\
     forall j, (k < j)%nat -> String.get j s <> Some c).
Proof.
  unfold rfind. destruct (rfind_from_spec c s 0 (-1)) as [H|(k & Hr & H)]; [left; exact H|].
  right. exists k. split; [rewrite Hr; lia|exact H].
Qed.

Lemma get_tail k d s :
  String.get k (slice s (Z.of_nat d) (Z.of_nat (String.length s)))
  = if decide (k < String.length s - d)%nat then String.get (k + d) s else None.
Proof.
  unfold slice. rewrite Nat2Z.id.
  replace (Z.to_nat (Z.of_nat (String.length s) - Z.of_nat d))
    with (String.length s - d)%nat by lia.
  destruct (decide (k < String.length s - d)%nat) as [Hlt|Hge].
  - apply substring_correct1. exact Hlt.
  - apply substring_correct2. lia.
Qed.

(** X7.  The suffix that the handler gives to the scratch file, taken from
    the uploaded file name by [os.path.splitext], contains no path
    separator; it is empty or starts with a dot, and has no other dot. *)
Theorem X7_suffix_is_a_plain_extension name :
  let ext := snd (splitext name) in
  no_sep ext /\
  (ext = "" \/ String.get 0 ext = Some "."%char) /\
  forall k, String.get (S k) ext <> Some "."%char.
Proof.
  assert (Hempty : no_sep "" /\ ("" = "" \/ String.get 0 "" = Some "."%char) /\
                   forall k, String.get (S k) "" <> Some "."%char).
  { split; [intros k; destruct k; discriminate|]. split; [left; reflexivity|].
    intros k. discriminate. }
  unfold splitext.
  destruct (rfind "/" name <? rfind "." name)%Z eqn:Hlt; [|exact Hempty].
  destruct (has_non_dot _); [|exact Hempty].
  apply Z.ltb_lt in Hlt. simpl.
  destruct (rfind_spec "." name) as [[Hd _]|(d & Hd & Hdot & Hlast)].
  { destruct (rfind_spec "/" name) as [[Hs _]|(k & Hs & _)]; lia. }
  rewrite Hd in *.
  pose proof (get_Some_lt _ _ _ Hdot) as Hlen.
  split; [|split].
  - intros k. rewrite get_tail. case_decide; [|discriminate].
    destruct (rfind_spec "/" name) as [[_ Hno]|(s & Hs & _ & Hslast)].
    + apply Hno.
    + apply Hslast. lia.
  - right. rewrite get_tail. rewrite decide_True by lia. exact Hdot.
  - intros k. rewrite get_tail. case_decide; [|discriminate].
    apply Hlast. lia.
Qed.

(** The candidate that [mkstemp_inner] returns is the first one, from
    [seq] on, that is not taken. *)
Lemma mkstemp_inner_first_free names dir pre suf (files : gmap string (list Byte.byte))
    tries seq p :
  mkstemp_inner names dir pre suf files tries seq = Some p ->
  exists n,
    (seq <= n < seq + tries)%nat /\
    p = os_path_join dir (pre +:+ names n +:+ suf) /\
    forall m, (seq <= m < n)%nat ->
      is_Some (files !! os_path_join dir (pre +:+ names m +:+ suf)).
Proof.
  revert seq. induction tries as [|t IH]; intros seq; simpl; [discriminate|].
  destruct (files !! os_path_join dir (pre +:+ names seq +:+ suf)) eqn:E.
  - intros H. destruct (IH _ H) as (n & Hn & Hp & Htaken).
    exists n. split; [lia|]. split; [exact Hp|].
    intros m Hm. destruct (decide (m = seq)) as [->|Hne]; [eauto|].
    apply Htaken. lia.
  - intros [= <-]. exists seq. split; [lia|]. split; [reflexivity|].
    intros m Hm. lia.
Qed.

(** X12.  The scratch file that a request creates is named
    [tmp<candidate><suffix>] in the temporary directory, for the first
    candidate of the name generator whose file does not exist yet; the
    suffix is the extension of the uploaded file name. *)
Theorem X12_scratch_path_is_first_free_candidate o req w r w' :
  post_convert o req w = (r, w') ->
  let candidate n :=
    os_path_join (tempdir o)
      ("tmp" +:+ rand_name o n +:+ snd (splitext (fmt (filename (file req))))) in
  created (trace w') = created (trace w) \/
  exists n,
    (n < tmp_max o)%nat /\
    created (trace w') = candidate n :: created (trace w) /\
    fs w !! candidate n = None /\
    forall m, (m < n)%nat -> is_Some (fs w !! candidate m).
Proof.
  intros H candidate. walk H; simpl; auto.
  all: right.
  all: match goal with
       | Hp : mkstemp _ _ _ = Some ?p |- _ =>
           pose proof (mkstemp_fresh _ _ _ _ Hp) as Hfresh;
           apply mkstemp_inner_first_free in Hp as (n & Hn & -> & Htaken)
       end.
  all: exists n; split; [lia|]; split; [reflexivity|]; split; [exact Hfresh|].
  all: intros m Hm; apply Htaken; lia.
Qed.

End Gateway.

(** ** Concrete runs *)

Import Samples.

Example splitext_docx : splitext "report.docx" = ("report", ".docx").
Proof. reflexivity. Qed.

Example splitext_hidden : splitext ".bashrc" = (".bashrc", "").
Proof. reflexivity. Qed.

Example splitext_dir : splitext "a.b/c" = ("a.b/c", "").
Proof. reflexivity. Qed.

Example splitext_tar : splitext "x/y.tar.gz" = ("x/y.tar", ".gz").
Proof. reflexivity. Qed.

Example splitext_leading_dots : splitext "..x" = ("..x", "").
Proof. reflexivity. Qed.

Example splitext_trailing_dot : splitext "a." = ("a", ".").
Proof. reflexivity. Qed.

Example API_TOKEN_from_environment : API_TOKEN environ_set = "s3cret".
Proof. vm_compute. reflexivity. Qed.

Example API_TOKEN_placeholder : API_TOKEN environ_unset = "your-secret-token-here".
Proof. vm_compute. reflexivity. Qed.

Example mkstemp_first_candidate :
  mkstemp quiet ".docx" (fs world0) = Some scratch.
Proof. vm_compute. reflexivity. Qed.

Example mkstemp_skips_taken_name :
  mkstemp second_draw ".docx" (fs world_busy) = Some "/tmp/tmpzz81h_0p.docx".
Proof. vm_compute. reflexivity. Qed.

Lemma staged_report o (files : gmap string (list Byte.byte)) p :
  read_fault o = None -> open_fault o = None -> write_fault o = None ->
  close_fault o = None -> mkstemp o ".docx" files = Some p ->
  staged o report files p.
Proof. intros; repeat split; assumption. Qed.

Lemma engine_ok_deterministic : engine_deterministic engine_ok.
Proof.
  intros o1 o2 suffix files1 files2 p1 p2 data _ _.
  unfold engine_ok. rewrite !lookup_insert_eq. reflexivity.
Qed.

(** The report is converted: the response, and the world left with the
    scratch file gone. *)
Example convert_report :
  serve environ_unset engine_ok forbidden quiet POST "/convert" authorized_report world0
  = Some
    ({| status := 200;
        body := PDict
          [("success", PBool true);
           ("filename", PStr "report.docx");
           ("file_size", PInt 4);
           ("markdown", PStr "# Report");
           ("metadata", PDict [("title", PNone); ("content_length", PInt 8)])] |},
     {| fs := ∅;
        trace :=
          [EvUnlink scratch; EvConvert scratch; EvWrite scratch 4; EvOpen scratch;
           EvLog "INFO"
             "Converting file: report.docx (Content-Type: application/octet-stream)"] |}).
Proof. vm_compute. reflexivity. Qed.

(** A failed write leaves the scratch file behind: the handler has no
    clean-up on that path. *)
Example write_failure_answers_500 :
  let disk_full :=
    {| tempdir := "/tmp"; tmp_max := 238328; rand_name := fun _ => "k3x9_q2a";
       read_fault := None; open_fault := None;
       write_fault := Some "[Errno 28] No space left on device";
       close_fault := None; unlink_fault := None; cleanup_unlink_fault := None |} in
  let run := post_convert environ_unset engine_ok forbidden disk_full
               authorized_report world0 in
  respond run.1
  = {| status := 500;
       body := PDict [("detail",
         PStr "Internal server error: [Errno 28] No space left on device")] |} /\
  converted (trace run.2) = [] /\
  fs run.2 !! scratch = Some [].
Proof. vm_compute. repeat split. Qed.

(** ** Instances of the claims *)

(** Witness of C1: the engine rejects the staged report. *)
Lemma C1_witness :
  let run := post_convert environ_unset engine_fail forbidden quiet authorized_report world0 in
  status (respond run.1) = 500 /\
  (cleanup_unlink_fault quiet = None ->
   exists d,
     detail_of (respond run.1) = Some (PStr d) /\
     d = "Internal server error: 422: Failed to convert file: " +:+ "cannot parse" /\
     contains d "cannot parse").
Proof.
  intros run.
  apply (C1_engine_failure_answers_500 environ_unset engine_fail forbidden quiet
           authorized_report world0 scratch
           (PyException "UnsupportedFormatException" "cannot parse") run.1 run.2).
  - reflexivity.
  - reflexivity.
  - apply staged_report; reflexivity.
  - reflexivity.
  - apply surjective_pairing.
Defined.

(** C1 at the failing input: the whole response and the world left. *)
Example C1_failing_input :
  serve environ_unset engine_fail forbidden quiet POST "/convert" authorized_report world0
  = Some
    ({| status := 500;
        body := PDict [("detail",
          PStr "Internal server error: 422: Failed to convert file: cannot parse")] |},
     {| fs := ∅;
        trace :=
          [EvLog "ERROR"
             "Error processing file report.docx: 422: Failed to convert file: cannot parse";
           EvLog "ERROR" "Conversion error for report.docx: cannot parse";
           EvUnlink scratch; EvConvert scratch; EvWrite scratch 4; EvOpen scratch;
           EvLog "INFO"
             "Converting file: report.docx (Content-Type: application/octet-stream)"] |}).
Proof. vm_compute. reflexivity. Qed.

(** Witness of C2: a wrong token. *)
Lemma C2_witness :
  let run := post_convert environ_unset engine_ok forbidden quiet wrong_token_report world0 in
  run.2 = world0 /\ status (respond run.1) = 401.
Proof.
  intros run.
  apply (C2_bad_token_rejected_before_staging environ_unset engine_ok forbidden quiet
           wrong_token_report world0 run.1 run.2).
  - discriminate.
  - apply surjective_pairing.
Defined.

(** Counterexample to C2 as stated: with the [HTTPBearer] that answers 403
    to a request without credentials, a missing token is not answered 401. *)
Lemma C2_missing_token_answered_403 :
  let run := post_convert environ_unset engine_ok forbidden quiet anonymous_report world0 in
  bearer anonymous_report = None /\
  status (respond run.1) = 403 /\ status (respond run.1) <> HTTP_401_UNAUTHORIZED.
Proof. vm_compute. repeat split; discriminate. Qed.

(** Witness of C3: a conversion without faults. *)
Lemma C3_witness :
  let run := post_convert environ_unset engine_ok forbidden quiet authorized_report world0 in
  (length (created (trace run.2)) <= S (length (created (trace world0))))%nat /\
  created (trace run.2) = scratch :: created (trace world0) /\
  converted (trace run.2) = scratch :: converted (trace world0) /\
  In (EvUnlink scratch) (trace run.2) /\
  fs run.2 !! scratch = None /\
  fs run.2 = fs world0.
Proof.
  intros run.
  destruct (C3_scratch_file_removed environ_unset engine_ok forbidden quiet
              authorized_report world0 run.1 run.2 (surjective_pairing _)) as [Hone Hdel].
  split; [exact Hone|].
  apply Hdel; try reflexivity.
  apply staged_report; reflexivity.
Defined.

(** Counterexample to C3 as stated: the operating system refuses both
    deletes, and the scratch file created by the request is still there
    when the request returns. *)
Lemma C3_scratch_file_left_behind :
  let run := post_convert environ_unset engine_ok forbidden undeletable
               authorized_report world0 in
  created (trace run.2) = [scratch] /\
  converted (trace run.2) = [scratch] /\
  fs run.2 !! scratch = Some (content report).
Proof. vm_compute. repeat split. Qed.

(** Witness of C4: the report converted without faults. *)
Lemma C4_witness :
  let run := post_convert environ_unset engine_ok forbidden quiet authorized_report world0 in
  exists resp,
    run.1 = Return resp /\
    status (respond run.1) = 200 /\
    dict_get "success" resp = Some (PBool true) /\
    dict_get "filename" resp = Some (PStr "report.docx") /\
    dict_get "file_size" resp = Some (PInt 4) /\
    dict_get "markdown" resp = Some (PStr "# Report") /\
    (dict_get "metadata" resp ≫= dict_get "content_length") = Some (PInt 8).
Proof.
  intros run.
  apply (C4_success_response environ_unset engine_ok forbidden quiet authorized_report
           world0 "report.docx" scratch {["text_content" := PStr "# Report"]} "# Report"
           run.1 run.2).
  - reflexivity.
  - reflexivity.
  - discriminate.
  - apply staged_report; reflexivity.
  - reflexivity.
  - reflexivity.
  - reflexivity.
  - apply surjective_pairing.
Defined.

(** Counterexample to C4 as stated: correct token, non-empty file name and
    an engine call that succeeds, but the delete after it is refused and
    the response is a 500 error without a [success] field. *)
Lemma C4_engine_succeeds_yet_500 :
  let req := authorized_report in
  let run := post_convert environ_unset engine_ok forbidden refused_once req world0 in
  bearer req = Some (API_TOKEN environ_unset) /\
  filename (file req) = Some "report.docx" /\
  engine_ok scratch (<[scratch:=content (file req)]> (fs world0))
  = Return {["text_content" := PStr "# Report"]} /\
  converted (trace run.2) = [scratch] /\
  status (respond run.1) = 500 /\
  dict_get "success" (body (respond run.1)) = None.
Proof. vm_compute. repeat split. Qed.

(** Witness of C5: an upload with an empty file name. *)
Lemma C5_witness :
  let run := post_convert environ_unset engine_ok forbidden quiet authorized_nameless world0 in
  run.2 = world0 /\
  run.1 = Raise (HTTPException HTTP_400_BAD_REQUEST "No file provided" []) /\
  status (respond run.1) = 400.
Proof.
  intros run.
  destruct (C5_missing_filename_answers_400 environ_unset engine_ok forbidden quiet
              authorized_nameless world0 run.1 run.2 eq_refl (surjective_pairing _))
    as (Hw & Hauth & _).
  split; [exact Hw|]. apply Hauth. reflexivity.
Defined.

(** Witness of C6: the first delete is refused. *)
Lemma C6_witness :
  let run := post_convert environ_unset engine_ok forbidden refused_once
               authorized_report world0 in
  exists sc d h,
    run.1 = Raise (HTTPException sc d h) /\
    (sc = HTTP_422_UNPROCESSABLE_ENTITY \/ sc = HTTP_500_INTERNAL_SERVER_ERROR).
Proof.
  intros run.
  apply (C6_delete_failure_is_an_error environ_unset engine_ok forbidden refused_once
           authorized_report world0 scratch {["text_content" := PStr "# Report"]}
           "[Errno 13] Permission denied" run.1 run.2).
  - reflexivity.
  - reflexivity.
  - apply staged_report; reflexivity.
  - reflexivity.
  - reflexivity.
  - apply surjective_pairing.
Defined.

(** Counterexample to C6 as stated: the engine call succeeds, deleting the
    scratch file fails, and the caller receives a 500 error. *)
Lemma C6_delete_failure_reaches_caller :
  let run := post_convert environ_unset engine_ok forbidden undeletable
               authorized_report world0 in
  engine_ok scratch (<[scratch:=content report]> (fs world0))
  = Return {["text_content" := PStr "# Report"]} /\
  unlink_fault undeletable = Some "[Errno 13] Permission denied" /\
  respond run.1
  = {| status := 500;
       body := PDict [("detail",
         PStr "Internal server error: [Errno 13] Permission denied")] |}.
Proof. vm_compute. repeat split. Qed.

(** Witness of C8: the second request is staged while the scratch file of
    the first is still there. *)
Lemma C8_witness :
  exists b1 b2 w1' w2',
    post_convert environ_unset engine_ok forbidden quiet authorized_report world0
    = (Return b1, w1') /\
    post_convert environ_unset engine_ok forbidden second_draw authorized_report world_busy
    = (Return b2, w2') /\
    dict_get "markdown" b1 = dict_get "markdown" b2 /\
    exists p1 p2,
      created (trace w1') = p1 :: created (trace world0) /\
      created (trace w2') = p2 :: created (trace world_busy) /\
      (is_Some (fs world_busy !! p1) -> p1 <> p2).
Proof.
  eassert (E1 : post_convert environ_unset engine_ok forbidden quiet authorized_report world0
                = (Return _, _)) by (vm_compute; reflexivity).
  eassert (E2 : post_convert environ_unset engine_ok forbidden second_draw authorized_report
                  world_busy = (Return _, _)) by (vm_compute; reflexivity).
  eexists _, _, _, _. split; [exact E1|]. split; [exact E2|].
  exact (C8_same_markdown_fresh_scratch environ_unset engine_ok forbidden _ _ _ _ _ _ _ _ _ _
           engine_ok_deterministic eq_refl eq_refl E1 E2).
Defined.

(** Counterexample to C8 as stated: two successful runs one after the
    other, the name generator drawing the same candidate, use the same
    scratch path. *)
Lemma C8_sequential_runs_reuse_path :
  let run1 := post_convert environ_unset engine_ok forbidden quiet authorized_report world0 in
  let run2 := post_convert environ_unset engine_ok forbidden quiet authorized_report run1.2 in
  engine_deterministic engine_ok /\
  (exists b1 b2, run1.1 = Return b1 /\ run2.1 = Return b2) /\
  created (trace run1.2) = [scratch] /\
  created (trace run2.2) = [scratch; scratch].
Proof.
  intros run1 run2. split; [exact engine_ok_deterministic|].
  vm_compute. repeat split. eexists _, _. split; reflexivity.
Qed.

(** Witness of C10: the result of the sample engine has no [title]. *)
Lemma C10_witness :
  let run := post_convert environ_unset engine_ok forbidden quiet authorized_report world0 in
  exists resp,
    run.1 = Return resp /\
    (dict_get "metadata" resp ≫= dict_get "title") = Some PNone.
Proof.
  intros run.
  eassert (E : post_convert environ_unset engine_ok forbidden quiet authorized_report world0
               = (Return _, _)) by (vm_compute; reflexivity).
  eexists. split; [unfold run; rewrite E; reflexivity|].
  apply (C10_missing_title_is_null environ_unset engine_ok forbidden quiet authorized_report
           world0 _ _ scratch {["text_content" := PStr "# Report"]} E).
  - apply staged_report; reflexivity.
  - reflexivity.
  - reflexivity.
Defined.

(** ** Instances of the further properties *)

(** Witness of X1: the engine rejects the report and the answer is 500. *)
Lemma X1_witness :
  let run := post_convert environ_unset engine_fail forbidden quiet authorized_report world0 in
  (exists resp, run.1 = Return resp /\ dict_get "success" resp = Some (PBool true)) \/
  (bearer authorized_report = None /\ run.1 = Raise forbidden) \/
  run.1 = Raise (HTTPException HTTP_401_UNAUTHORIZED "Invalid authentication token"
                   [("WWW-Authenticate", "Bearer")]) \/
  run.1 = Raise (HTTPException HTTP_400_BAD_REQUEST "No file provided" []) \/
  (exists msg,
     run.1 = Raise (HTTPException HTTP_500_INTERNAL_SERVER_ERROR
                      ("Internal server error: " +:+ msg) [])).
Proof.
  intros run.
  apply (X1_answers_of_post_convert environ_unset engine_fail forbidden quiet
           authorized_report world0 run.1 run.2).
  apply surjective_pairing.
Defined.

(** Witness of X2: the upload cannot be read. *)
Lemma X2_witness :
  let run := post_convert environ_unset engine_ok forbidden unreadable
               authorized_report world0 in
  run.1 = Raise (HTTPException HTTP_500_INTERNAL_SERVER_ERROR
                   ("Internal server error: " +:+ "connection reset") []) /\
  fs run.2 = fs world0 /\
  created (trace run.2) = created (trace world0) /\
  converted (trace run.2) = converted (trace world0).
Proof.
  intros run.
  apply (X2_failure_before_staging environ_unset engine_ok forbidden unreadable
           authorized_report world0 "connection reset" run.1 run.2).
  - reflexivity.
  - reflexivity.
  - left. reflexivity.
  - apply surjective_pairing.
Defined.

(** Witness of X3: the disk is full. *)
Lemma X3_witness :
  let run := post_convert environ_unset engine_ok forbidden disk_full
               authorized_report world0 in
  status (respond run.1) = HTTP_500_INTERNAL_SERVER_ERROR /\
  created (trace run.2) = scratch :: created (trace world0) /\
  converted (trace run.2) = converted (trace world0) /\
  unlinked (trace run.2) = unlinked (trace world0) /\
  is_Some (fs run.2 !! scratch).
Proof.
  intros run.
  apply (X3_failed_write_leaves_scratch_file environ_unset engine_ok forbidden disk_full
           authorized_report world0 scratch run.1 run.2).
  - reflexivity.
  - reflexivity.
  - reflexivity.
  - reflexivity.
  - reflexivity.
  - left. discriminate.
  - apply surjective_pairing.
Defined.

(** Witness of X4: a conversion while another scratch file is in flight. *)
Lemma X4_witness :
  let run := post_convert environ_unset engine_ok forbidden second_draw
               authorized_report world_busy in
  (created (trace run.2) = created (trace world_busy) /\ fs run.2 = fs world_busy) \/
  (exists p,
     created (trace run.2) = p :: created (trace world_busy) /\
     fs world_busy !! p = None /\
     forall q, q <> p -> fs run.2 !! q = fs world_busy !! q).
Proof.
  intros run.
  apply (X4_other_files_untouched environ_unset engine_ok forbidden second_draw
           authorized_report world_busy run.1 run.2).
  apply surjective_pairing.
Defined.



(** Witness of X8: the report staged in an empty file system. *)
Lemma X8_witness :
  exists w1,
    write_temp_file quiet ".docx" (content report) world0 = (Return scratch, w1) /\
    fs world0 !! scratch = None /\
    fs w1 !! scratch = Some (content report) /\
    (forall q, q <> scratch -> fs w1 !! q = fs world0 !! q) /\
    trace w1 = EvWrite scratch (length (content report)) :: EvOpen scratch :: trace world0.
Proof.
  eassert (E : write_temp_file quiet ".docx" (content report) world0 = (Return scratch, _))
    by (vm_compute; reflexivity).
  eexists. split; [exact E|].
  exact (X8_staging_round_trip quiet ".docx" (content report) world0 scratch _ E).
Defined.

(** Witness of X9: the engine's result has [None] as text. *)
Lemma X9_witness :
  let run := post_convert environ_unset engine_no_text forbidden quiet
               authorized_report world0 in
  status (respond run.1) = HTTP_500_INTERNAL_SERVER_ERROR /\
  fs run.2 = fs world0 /\
  unlinked (trace run.2) = scratch :: unlinked (trace world0).
Proof.
  intros run.
  apply (X9_result_without_text environ_unset engine_no_text forbidden quiet
           authorized_report world0 scratch {["text_content" := PNone]} run.1 run.2).
  - reflexivity.
  - reflexivity.
  - apply staged_report; reflexivity.
  - reflexivity.
  - reflexivity.
  - right. left. reflexivity.
  - apply surjective_pairing.
Defined.

(** Witness of X10: the root route, asked without credentials. *)
Lemma X10_witness :
  exists resp,
    serve environ_unset engine_ok forbidden quiet GET "/" anonymous_report world0
    = Some (resp, world0) /\
    status resp = 200 /\
    forall o' req',
      serve environ_unset engine_ok forbidden o' GET "/" req' world0 = Some (resp, world0).
Proof.
  eassert (E : serve environ_unset engine_ok forbidden quiet GET "/" anonymous_report world0
               = Some (_, world0)) by reflexivity.
  eexists. split; [exact E|].
  destruct (X10_open_routes environ_unset engine_ok forbidden quiet GET "/"
              anonymous_report world0 _ _ E) as (Hs & _ & Hany).
  - discriminate.
  - split; [exact Hs|exact Hany].
Defined.

(** Witness of X11: the engine rejects the report and the clean-up delete
    is refused. *)
Lemma X11_witness :
  let run := post_convert environ_unset engine_fail forbidden cleanup_refused
               authorized_report world0 in
  run.1 = Raise (HTTPException HTTP_500_INTERNAL_SERVER_ERROR
                   ("Internal server error: " +:+ "[Errno 13] Permission denied") []) /\
  logged "ERROR" (trace run.2)
  = ("Error processing file " +:+ fmt (filename (file authorized_report)) +:+ ": "
     +:+ "[Errno 13] Permission denied") :: logged "ERROR" (trace world0) /\
  fs run.2 !! scratch = Some (content (file authorized_report)).
Proof.
  intros run.
  apply (X11_cleanup_failure_hides_engine_error environ_unset engine_fail forbidden
           cleanup_refused authorized_report world0 scratch
           (PyException "UnsupportedFormatException" "cannot parse")
           "[Errno 13] Permission denied" run.1 run.2).
  - reflexivity.
  - reflexivity.
  - apply staged_report; reflexivity.
  - reflexivity.
  - reflexivity.
  - apply surjective_pairing.
Defined.

(** Witness of X12: the second candidate is taken when the first one
    exists. *)
Lemma X12_witness :
  let run := post_convert environ_unset engine_ok forbidden second_draw
               authorized_report world_busy in
  let candidate n :=
    os_path_join (tempdir second_draw)
      ("tmp" +:+ rand_name second_draw n
       +:+ snd (splitext (fmt (filename (file authorized_report))))) in
  created (trace run.2) = created (trace world_busy) \/
  exists n,
    (n < tmp_max second_draw)%nat /\
    created (trace run.2) = candidate n :: created (trace world_busy) /\
    fs world_busy !! candidate n = None /\
    forall m, (m < n)%nat -> is_Some (fs world_busy !! candidate m).
Proof.
  intros run.
  apply (X12_scratch_path_is_first_free_candidate environ_unset engine_ok forbidden
           second_draw authorized_report world_busy run.1 run.2).
  apply surjective_pairing.
Defined.

(** The file name of the upload cannot move the scratch file: only its
    extension is kept. *)
Example traversal_stays_in_tempdir :
  let run := post_convert environ_unset engine_ok forbidden quiet
               authorized_traversal world0 in
  snd (splitext "../../etc/cron.d/job.sh") = ".sh" /\
  created (trace run.2) = ["/tmp/tmpk3x9_q2a.sh"].
Proof. vm_compute. split; reflexivity. Qed.
